(** * Covalent UI: the lattice routes

    A shallow embedding of [covalent_ui/api/v1/routes/end_points/lattice_route.py]:
    the two request handlers [get_lattice_details] and [get_lattice_files],
    the session scope they run in, and the file reads they perform.

    Handlers are written in a small monad that threads the list of
    observable events (session enter and exit, file reads) and stops at
    the first raised exception, as Python does. *)

From stdpp Require Import base strings gmap list pretty.
From Stdlib Require Import ZArith.

Local Open Scope Z_scope.
Local Open Scope string_scope.
Local Open Scope list_scope.

(** ** Python values *)

(** The values a handler puts in a response field: the atoms that occur
    in the routes, and any other unpickled object, which is kept opaque
    and carries the text its [__str__] produces. *)
Inductive pyval : Type :=
| PyNone
| PyBool (b : bool)
| PyInt (z : Z)
| PyStr (s : string)
| PyObject (cls : string) (rendering : string).

(** The builtin [str(x)]. *)
Definition py_str (v : pyval) : string :=
  match v with
  | PyNone => "None"
  | PyBool true => "True"
  | PyBool false => "False"
  | PyInt z => pretty z
  | PyStr s => s
  | PyObject _ rendering => rendering
  end.

(** [uuid.UUID], kept as the canonical text an f-string interpolates. *)
Definition UUID : Type := string.

Definition datetime : Type := Z.

(** ** Exceptions and outcomes *)

(** One entry of the [detail] list of an [HTTPException]. *)
Record error_detail : Type := ErrorDetail {
  loc : list string;
  msg : string;
  type_ : option string
}.

Inductive exn : Type :=
| HTTPException (status_code : Z) (detail : list error_detail)
| MissingFile (location path : string)
| DecodeError (location path : string)
| DatabaseError (reason : string)
| ValidationError (model field : string).

Inductive outcome (A : Type) : Type :=
| Return (a : A)
| Raise (e : exn).
Arguments Return {A} a.
Arguments Raise {A} e.

(** ** Events and the handler monad *)

(** Which reader of [FileHandler] was called. *)
Inductive reader : Type := read_text_op | read_pickle_op.

Inductive event : Type :=
| SessionEnter
| SessionExit
| FileRead (op : reader) (location path : string).

(** A computation extends the trace of events seen so far and either
    returns or raises. *)
Definition M (A : Type) : Type := list event → outcome A * list event.

Definition ret {A} (a : A) : M A := λ t, (Return a, t).

Definition bind {A B} (m : M A) (k : A → M B) : M B :=
  λ t, match m t with
       | (Return a, t') => k a t'
       | (Raise e, t') => (Raise e, t')
       end.

Definition raise {A} (e : exn) : M A := λ t, (Raise e, t).

Definition emit (ev : event) : M unit := λ t, (Return tt, t ++ [ev]).

(** Lifts the outcome of a call that has no event of its own. *)
Definition lift {A} (o : outcome A) : M A := λ t, (o, t).

Global Instance M_ret : MRet M := @ret.
Global Instance M_bind : MBind M := λ A B k m, bind m k.

(** Runs a handler from the empty trace. *)
Definition run {A} (m : M A) : outcome A * list event := m [].
Definition result_of {A} (m : M A) : outcome A := fst (run m).
Definition trace_of {A} (m : M A) : list event := snd (run m).

(** ** Rows and responses *)

(** The row [Lattices.get_lattices_id] yields: the columns that
    [get_lattice_details] reads from [data]. *)
Module Row.
Record t : Type := Build {
  dispatch_id : string;
  status : string;
  total_electrons : Z;
  total_electrons_completed : Z;
  start_time : datetime;
  end_time : option datetime;
  directory : string;
  runtime : Z
}.
End Row.

(** The response model of [get_lattice_details]. *)
Module LatticeDetailResponse.
Record t : Type := Build {
  dispatch_id : string;
  status : string;
  total_electrons : Z;
  total_electrons_completed : Z;
  started_at : datetime;
  ended_at : option datetime;
  directory : string;
  runtime : Z
}.
End LatticeDetailResponse.

(** The mapping [Lattices.get_lattices_id_storage_file] yields; a field
    stands for the subscript [lattice_data["<field>"]]. *)
Module LatticeData.
Record t : Type := Build {
  directory : string;
  results_filename : string;
  inputs_filename : string;
  function_string_filename : string;
  executor : string;
  executor_data_filename : string;
  workflow_executor : string;
  workflow_executor_data_filename : string;
  error_filename : string;
  function_filename : string;
  transport_graph_filename : string
}.
End LatticeData.

(** The instances of the three response models that [get_lattice_files]
    returns, with the values their fields store. *)
Inductive file_response : Type :=
| LatticeFileResponse (data : pyval)
| LatticeExecutorResponse (executor_name : string) (executor_details : pyval)
| LatticeWorkflowExecutorResponse
    (workflow_executor_name : string) (workflow_executor_details : pyval).

(** What the response models (module [lattices_model], absent here)
    make of a value handed to one of their fields when an instance is
    built: the value the field then stores, which may be a coerced one,
    or the exception that rejects it. Kept opaque, like the codec. *)
Record Models : Type := {
  data_field : pyval → outcome pyval;
  executor_details_field : pyval → outcome pyval;
  workflow_executor_details_field : pyval → outcome pyval
}.

Definition outcome_map {A B} (f : A → B) (o : outcome A) : outcome B :=
  match o with
  | Return a => Return (f a)
  | Raise e => Raise e
  end.

(** Modelled from the spec: [LatticeFileResponse(data=...)]. The data of
    a response is null (section 3) or the text it was given (section
    8), and these two are stored as they are; what becomes of any other
    value is for the validation of the model to say. *)
Definition LatticeFileResponse_init (models : Models) (data : pyval)
  : outcome file_response :=
  match data with
  | PyNone | PyStr _ => Return (LatticeFileResponse data)
  | _ => outcome_map LatticeFileResponse (data_field models data)
  end.

(** Modelled from the spec: [LatticeExecutorResponse(executor_name=...,
    executor_details=...)]. The name is the string of the record
    (section 4.4), stored as it is; the details go through the
    validation of the model. *)
Definition LatticeExecutorResponse_init (models : Models)
    (executor_name : string) (executor_details : pyval)
  : outcome file_response :=
  outcome_map (LatticeExecutorResponse executor_name)
    (executor_details_field models executor_details).

(** Modelled from the spec: [LatticeWorkflowExecutorResponse(
    workflow_executor_name=..., workflow_executor_details=...)], as
    for the executor. *)
Definition LatticeWorkflowExecutorResponse_init (models : Models)
    (workflow_executor_name : string) (workflow_executor_details : pyval)
  : outcome file_response :=
  outcome_map (LatticeWorkflowExecutorResponse workflow_executor_name)
    (workflow_executor_details_field models workflow_executor_details).

(** ** Collaborators outside the route module *)

(** The backing store behind [engine]: what a lookup by dispatch id
    yields in each of the two tables, or the exception it raises. *)
Record Engine : Type := {
  lattice_rows : UUID → outcome (option Row.t);
  storage_rows : UUID → outcome (option LatticeData.t)
}.

Variant Session : Type := SessionOn (bind_ : Engine).

(** Modelled from the spec: the data layer [Lattices] (module
    [lattice_dal], absent here) does one lookup by primary key, without
    side effects, and signals absence with [None]. *)
Record Lattices : Type := LatticesOn { session_of : Session }.

Definition get_lattices_id (electron : Lattices) (dispatch_id : UUID)
  : M (option Row.t) :=
  let 'SessionOn e := session_of electron in lift (lattice_rows e dispatch_id).

Definition get_lattices_id_storage_file (electron : Lattices) (dispatch_id : UUID)
  : M (option LatticeData.t) :=
  let 'SessionOn e := session_of electron in lift (storage_rows e dispatch_id).

(** The codec of the artifact files, kept opaque: [None] when the bytes
    are not valid for it. *)
Record Codec : Type := {
  pickle_load : string → option pyval;
  text_decode : string → option string
}.

(** The files on disk, by storage directory and file name. *)
Abbreviation Disk := (gmap (string * string) string).

(** Modelled from the spec: the reader [FileHandler] (module
    [file_handle], absent here) reads the named file of its directory;
    an absent file is MissingFile, bytes the codec rejects are
    DecodeError, and nothing is written. *)
Record FileHandler : Type := FileHandlerAt { location : string }.

Definition read_file (codec : Codec) (disk : Disk) (op : reader)
    (handler : FileHandler) (path : string) : M pyval :=
  _ ← emit (FileRead op (location handler) path);
  match disk !! (location handler, path) with
  | None => raise (MissingFile (location handler) path)
  | Some bytes =>
      let decoded :=
        match op with
        | read_pickle_op => pickle_load codec bytes
        | read_text_op => PyStr <$> text_decode codec bytes
        end in
      match decoded with
      | Some v => mret v
      | None => raise (DecodeError (location handler) path)
      end
  end.

Definition read_from_pickle codec disk := read_file codec disk read_pickle_op.
Definition read_from_text codec disk := read_file codec disk read_text_op.

(** [with Session(engine) as session: body]. The context manager is
    entered, the body runs, and [__exit__] runs however the body ends:
    by [return] or by a raised exception, which is then raised again. *)
Definition with_Session {A} (engine : Engine) (body : Session → M A) : M A :=
  λ t, let '(r, t') := body (SessionOn engine) (t ++ [SessionEnter]) in
       (r, t' ++ [SessionExit]).

(** ** The routes *)

Definition dispatch_id_does_not_exist (dispatch_id : UUID) : exn :=
  HTTPException 400
    [ {| loc := ["path"; "dispatch_id"];
         msg := "Dispatch ID " +:+ dispatch_id +:+ " does not exist";
         type_ := None |} ].

Section Routes.
Variable models : Models.
Variable engine : Engine.
Variable codec : Codec.
Variable disk : Disk.

Definition get_lattice_details (dispatch_id : UUID)
  : M LatticeDetailResponse.t :=
  with_Session engine (λ session,
    let electron := LatticesOn session in
    data ← get_lattices_id electron dispatch_id;
    match data with
    | Some data =>
        mret (LatticeDetailResponse.Build
                (Row.dispatch_id data)
                (Row.status data)
                (Row.total_electrons data)
                (Row.total_electrons_completed data)
                (Row.start_time data)
                (Row.end_time data)
                (Row.directory data)
                (Row.runtime data))
    | None => raise (dispatch_id_does_not_exist dispatch_id)
    end).

Definition get_lattice_files (dispatch_id : UUID) (name : string)
  : M file_response :=
  with_Session engine (λ session,
    let electron := LatticesOn session in
    lattice_data ← get_lattices_id_storage_file electron dispatch_id;
    match lattice_data with
    | Some lattice_data =>
        let handler := FileHandlerAt (LatticeData.directory lattice_data) in
        if String.eqb name "result" then
          response ← read_from_pickle codec disk handler
                       (LatticeData.results_filename lattice_data);
          lift (LatticeFileResponse_init models (PyStr (py_str response)))
        else if String.eqb name "inputs" then
          response ← read_from_pickle codec disk handler
                       (LatticeData.inputs_filename lattice_data);
          lift (LatticeFileResponse_init models response)
        else if String.eqb name "function_string" then
          response ← read_from_text codec disk handler
                       (LatticeData.function_string_filename lattice_data);
          lift (LatticeFileResponse_init models response)
        else if String.eqb name "executor" then
          let executor_name := LatticeData.executor lattice_data in
          executor_data ← read_from_pickle codec disk handler
                            (LatticeData.executor_data_filename lattice_data);
          lift (LatticeExecutorResponse_init models executor_name executor_data)
        else if String.eqb name "workflow_executor" then
          let executor_name := LatticeData.workflow_executor lattice_data in
          executor_data ← read_from_pickle codec disk handler
                            (LatticeData.workflow_executor_data_filename lattice_data);
          lift (LatticeWorkflowExecutorResponse_init models executor_name
                  executor_data)
        else if String.eqb name "error" then
          response ← read_from_text codec disk handler
                       (LatticeData.error_filename lattice_data);
          lift (LatticeFileResponse_init models response)
        else if String.eqb name "function" then
          response ← read_from_pickle codec disk handler
                       (LatticeData.function_filename lattice_data);
          lift (LatticeFileResponse_init models response)
        else if String.eqb name "transport_graph" then
          response ← read_from_pickle codec disk handler
                       (LatticeData.transport_graph_filename lattice_data);
          lift (LatticeFileResponse_init models response)
        else
          lift (LatticeFileResponse_init models PyNone)
    | None => raise (dispatch_id_does_not_exist dispatch_id)
    end).
End Routes.

(** ** The dispatch table of the specification *)

(** The response shape a table row asks for. *)
Inductive shape : Type :=
| shape_data
| shape_executor
| shape_workflow_executor.

Record table_row : Type := TableRow {
  filename_field : LatticeData.t → string;
  reader_of : reader;
  shape_of : shape
}.

(** The table as the specification prints it, one row per kind. *)
Definition dispatch_table : list (string * table_row) :=
  [ ("result",
      TableRow LatticeData.results_filename read_pickle_op shape_data);
    ("inputs",
      TableRow LatticeData.inputs_filename read_pickle_op shape_data);
    ("function_string",
      TableRow LatticeData.function_string_filename read_text_op shape_data);
    ("executor",
      TableRow LatticeData.executor_data_filename read_pickle_op shape_executor);
    ("workflow_executor",
      TableRow LatticeData.workflow_executor_data_filename read_pickle_op
               shape_workflow_executor);
    ("error",
      TableRow LatticeData.error_filename read_text_op shape_data);
    ("function",
      TableRow LatticeData.function_filename read_pickle_op shape_data);
    ("transport_graph",
      TableRow LatticeData.transport_graph_filename read_pickle_op shape_data) ].

Fixpoint row_of {V} (key : string) (rows : list (string * V)) : option V :=
  match rows with
  | [] => None
  | (k, v) :: rows' => if String.eqb key k then Some v else row_of key rows'
  end.

Definition table_lookup (kind : string) : option table_row :=
  row_of kind dispatch_table.

(** The closed enumeration of artifact kinds. *)
Definition recognized_kinds : list string :=
  [ "result"; "inputs"; "function_string"; "executor"; "workflow_executor";
    "error"; "function"; "transport_graph" ].

(** ** Observations on traces and errors *)

(** The file reads of a trace, in order. *)
Definition file_reads (t : list event) : list (reader * string * string) :=
  omap (λ ev, match ev with
              | FileRead op location path => Some (op, location, path)
              | _ => None
              end) t.

Definition is_read (ev : event) : Prop :=
  match ev with FileRead _ _ _ => True | _ => False end.

(** Sessions entered and not yet exited at the end of a trace. *)
Fixpoint sessions_held (t : list event) : Z :=
  match t with
  | [] => 0
  | SessionEnter :: t' => sessions_held t' + 1
  | SessionExit :: t' => sessions_held t' - 1
  | FileRead _ _ _ :: t' => sessions_held t'
  end.

Definition client_error (status_code : Z) : bool :=
  ((400 <=? status_code) && (status_code <? 500))%Z.

(** The error kinds of the specification, as seen on a raised exception. *)
Inductive error_kind : Type := NotFound | MissingFileKind | DecodeErrorKind | Other.

Definition kind_of (e : exn) : error_kind :=
  match e with
  | HTTPException _ _ => NotFound
  | MissingFile _ _ => MissingFileKind
  | DecodeError _ _ => DecodeErrorKind
  | DatabaseError _ => Other
  | ValidationError _ _ => Other
  end.

(** A computation that only adds file reads to the trace. *)
Definition reads_only {A} (m : M A) : Prop :=
  ∀ t, ∃ d, snd (m t) = t ++ d ∧ Forall is_read d.

(** ** A fixture: one completed run on disk *)

Module Fixture.
Definition D1 : UUID := "7d3f0d2e-5c1a-4b6e-9f0a-2b1c3d4e5f60".
Definition D2 : UUID := "00000000-0000-4000-8000-000000000002".

Definition summary : Row.t :=
  Row.Build D1 "COMPLETED" 5 5 1660000000 (Some 1660000042)
            "/results/D1" 42.

Definition storage : LatticeData.t :=
  LatticeData.Build "/results/D1" "result.pkl" "inputs.pkl"
    "function_string.txt" "local" "executor_data.pkl" "local"
    "workflow_executor_data.pkl" "error.log" "function.pkl"
    "transport_graph.pkl".

Definition lattices : gmap UUID Row.t := {[ D1 := summary ]}.
Definition lattice_files : gmap UUID LatticeData.t := {[ D1 := storage ]}.

Definition engine : Engine :=
  {| lattice_rows := λ id, Return (lattices !! id);
     storage_rows := λ id, Return (lattice_files !! id) |}.

(** An engine whose queries fail. *)
Definition broken_engine : Engine :=
  {| lattice_rows := λ _, Raise (DatabaseError "database is locked");
     storage_rows := λ _, Raise (DatabaseError "database is locked") |}.

(** A stand-in codec: a file holds the tag of the value it decodes to. *)
Definition codec : Codec :=
  {| pickle_load := λ bytes,
       if String.eqb bytes "int:5" then Some (PyInt 5)
       else if String.eqb bytes "obj:inputs" then
         Some (PyObject "dict" "{'args': [], 'kwargs': {}}")
       else if String.eqb bytes "obj:executor" then
         Some (PyObject "dict" "{'log_stdout': 'stdout.log'}")
       else if String.eqb bytes "obj:function" then
         Some (PyObject "TransportableObject" "<TransportableObject>")
       else if String.eqb bytes "obj:graph" then
         Some (PyObject "_TransportGraph" "<_TransportGraph>")
       else None;
     text_decode := Some |}.

(** Stand-in models: the data field takes a number as its text and
    rejects any other object; a details field takes a dict alone. *)
Definition models : Models :=
  {| data_field := λ v,
       match v with
       | PyInt _ | PyBool _ => Return (PyStr (py_str v))
       | _ => Raise (ValidationError "LatticeFileResponse" "data")
       end;
     executor_details_field := λ v,
       match v with
       | PyObject cls _ =>
           if String.eqb cls "dict" then Return v
           else Raise (ValidationError "LatticeExecutorResponse"
                                       "executor_details")
       | _ => Raise (ValidationError "LatticeExecutorResponse"
                                     "executor_details")
       end;
     workflow_executor_details_field := λ v,
       match v with
       | PyObject cls _ =>
           if String.eqb cls "dict" then Return v
           else Raise (ValidationError "LatticeWorkflowExecutorResponse"
                                       "workflow_executor_details")
       | _ => Raise (ValidationError "LatticeWorkflowExecutorResponse"
                                     "workflow_executor_details")
       end |}.

Definition disk : Disk :=
  list_to_map
    [ (("/results/D1", "result.pkl"), "int:5");
      (("/results/D1", "inputs.pkl"), "obj:inputs");
      (("/results/D1", "function_string.txt"), "def workflow(): pass");
      (("/results/D1", "executor_data.pkl"), "obj:executor");
      (("/results/D1", "workflow_executor_data.pkl"), "obj:executor");
      (("/results/D1", "error.log"), EmptyString);
      (("/results/D1", "function.pkl"), "obj:function");
      (("/results/D1", "transport_graph.pkl"), "obj:graph") ].
End Fixture.

(** ** The route as one lookup in the table *)

(** The shape of a response the route built. *)
Definition response_shape (r : file_response) : shape :=
  match r with
  | LatticeFileResponse _ => shape_data
  | LatticeExecutorResponse _ _ => shape_executor
  | LatticeWorkflowExecutorResponse _ _ => shape_workflow_executor
  end.

(** The response a row asks for around the value that was read, built
    by the model of its shape; the result kind alone wraps the value in
    [str]. *)
Definition build_response (models : Models) (name : string) (row : table_row)
    (lattice_data : LatticeData.t) (v : pyval) : outcome file_response :=
  match shape_of row with
  | shape_data =>
      LatticeFileResponse_init models
        (if String.eqb name "result" then PyStr (py_str v) else v)
  | shape_executor =>
      LatticeExecutorResponse_init models
        (LatticeData.executor lattice_data) v
  | shape_workflow_executor =>
      LatticeWorkflowExecutorResponse_init models
        (LatticeData.workflow_executor lattice_data) v
  end.

(** The one read a row asks for. *)
Definition read_row (codec : Codec) (disk : Disk) (row : table_row)
    (lattice_data : LatticeData.t) : M pyval :=
  read_file codec disk (reader_of row)
    (FileHandlerAt (LatticeData.directory lattice_data))
    (filename_field row lattice_data).

(** [get_lattice_files] rewritten as a dispatcher over the table: find
    the row of the name, do its read, build its response. *)
Definition dispatch_by_table (models : Models) (engine : Engine)
    (codec : Codec) (disk : Disk) (dispatch_id : UUID) (name : string)
  : M file_response :=
  with_Session engine (λ session,
    let electron := LatticesOn session in
    lattice_data ← get_lattices_id_storage_file electron dispatch_id;
    match lattice_data with
    | Some lattice_data =>
        match table_lookup name with
        | Some row =>
            v ← read_row codec disk row lattice_data;
            lift (build_response models name row lattice_data v)
        | None => lift (LatticeFileResponse_init models PyNone)
        end
    | None => raise (dispatch_id_does_not_exist dispatch_id)
    end).

(** Splits on the comparisons of the name with the eight kinds, in the
    order of the route, driven by a hypothesis that looks the name up
    in the table. *)
Ltac by_kind :=
  repeat match goal with
    | H : (if String.eqb ?name ?kind then _ else _) = _ |- _ =>
        let E := fresh "E" in
        revert H; destruct (String.eqb name kind) eqn:E; intros H;
        [ apply String.eqb_eq in E; subst name; simplify_eq/= | ]
    end;
  try discriminate.

Example fixture_function_string :
  run (get_lattice_files Fixture.models Fixture.engine Fixture.codec
               Fixture.disk
         Fixture.D1 "function_string")
  = (Return (LatticeFileResponse (PyStr "def workflow(): pass")),
     [SessionEnter;
      FileRead read_text_op "/results/D1" "function_string.txt";
      SessionExit]).
Proof. vm_compute. reflexivity. Qed.

Example fixture_result :
  result_of (get_lattice_files Fixture.models Fixture.engine Fixture.codec
               Fixture.disk
               Fixture.D1 "result")
  = Return (LatticeFileResponse (PyStr "5")).
Proof. vm_compute. reflexivity. Qed.

Example fixture_store_failure :
  run (get_lattice_files Fixture.models Fixture.broken_engine Fixture.codec Fixture.disk
         Fixture.D1 "inputs")
  = (Raise (DatabaseError "database is locked"), [SessionEnter; SessionExit]).
Proof. vm_compute. reflexivity. Qed.

Example fixture_undecodable_file :
  run (get_lattice_files Fixture.models Fixture.engine Fixture.codec
         (<[("/results/D1", "inputs.pkl") := "garbage"]> Fixture.disk)
         Fixture.D1 "inputs")
  = (Raise (DecodeError "/results/D1" "inputs.pkl"),
     [SessionEnter; FileRead read_pickle_op "/results/D1" "inputs.pkl";
      SessionExit]).
Proof. vm_compute. reflexivity. Qed.

Example fixture_number_as_inputs :
  result_of (get_lattice_files Fixture.models Fixture.engine Fixture.codec
               (<[("/results/D1", "inputs.pkl") := "int:5"]> Fixture.disk)
               Fixture.D1 "inputs")
  = Return (LatticeFileResponse (PyStr "5")).
Proof. vm_compute. reflexivity. Qed.

Example fixture_dict_as_inputs :
  result_of (get_lattice_files Fixture.models Fixture.engine Fixture.codec
               Fixture.disk Fixture.D1 "inputs")
  = Raise (ValidationError "LatticeFileResponse" "data").
Proof. vm_compute. reflexivity. Qed.

Example fixture_unknown_dispatch :
  result_of (get_lattice_details Fixture.engine Fixture.D2)
  = Raise (HTTPException 400
      [ErrorDetail ["path"; "dispatch_id"]
         "Dispatch ID 00000000-0000-4000-8000-000000000002 does not exist"
         None]).
Proof. vm_compute. reflexivity. Qed.

(** * Properties *)

(** ** The monad and the readers *)

Section Traces.
Context {A B : Type}.

Lemma bind_return (m : M A) (k : A → M B) t a t' :
  m t = (Return a, t') → (m ≫= k) t = k a t'.
Proof. intros Hm. unfold mbind, M_bind, bind. by rewrite Hm. Qed.

Lemma bind_raise (m : M A) (k : A → M B) t e t' :
  m t = (Raise e, t') → (m ≫= k) t = (Raise e, t').
Proof. intros Hm. unfold mbind, M_bind, bind. by rewrite Hm. Qed.

Lemma reads_only_ret (a : A) : reads_only (mret a : M A).
Proof. intros t. exists []. by rewrite app_nil_r. Qed.

Lemma reads_only_raise e : reads_only (raise e : M A).
Proof. intros t. exists []. by rewrite app_nil_r. Qed.

Lemma reads_only_lift (o : outcome A) : reads_only (lift o).
Proof. intros t. exists []. by rewrite app_nil_r. Qed.

Lemma reads_only_bind (m : M A) (k : A → M B) :
  reads_only m → (∀ a, reads_only (k a)) → reads_only (m ≫= k).
Proof.
  intros Hm Hk t. destruct (Hm t) as (d & Hd & Hread).
  destruct (m t) as [[a|e] t'] eqn:Hrun; simpl in Hd; subst t'.
  - erewrite bind_return by eassumption.
    destruct (Hk a (t ++ d)) as (d' & Hd' & Hread').
    exists (d ++ d'). rewrite Hd', <-app_assoc. split; [done|].
    by apply Forall_app.
  - erewrite bind_raise by eassumption. by exists d.
Qed.
End Traces.

Lemma read_file_trace codec disk op handler path t :
  snd (read_file codec disk op handler path t)
  = t ++ [FileRead op (location handler) path].
Proof.
  unfold read_file, mbind, M_bind, bind, emit, raise. simpl.
  destruct (disk !! _) as [bytes|]; [|done].
  by destruct op; simpl; [destruct (text_decode _ _)|destruct (pickle_load _ _)].
Qed.

Lemma reads_only_read_file codec disk op handler path :
  reads_only (read_file codec disk op handler path).
Proof.
  intros t. eexists. split; [apply read_file_trace|].
  by repeat constructor.
Qed.

(** A read followed by building the response adds the one read. *)
Lemma read_then_build_trace {R} codec disk op handler path
    (build : pyval → outcome R) t :
  snd ((read_file codec disk op handler path ≫= λ v, lift (build v)) t)
  = t ++ [FileRead op (location handler) path].
Proof.
  pose proof (read_file_trace codec disk op handler path t) as Htr.
  destruct (read_file codec disk op handler path t) as [[v|e] t'] eqn:Hrun;
    simpl in Htr; subst t'.
  - by erewrite bind_return by eassumption.
  - by erewrite bind_raise by eassumption.
Qed.

(** What a read yields when the file is there and decodes. *)
Lemma read_from_pickle_ok codec disk handler path bytes v t :
  disk !! (location handler, path) = Some bytes →
  pickle_load codec bytes = Some v →
  read_from_pickle codec disk handler path t
  = (Return v, t ++ [FileRead read_pickle_op (location handler) path]).
Proof.
  intros Hfile Hdec.
  unfold read_from_pickle, read_file, mbind, M_bind, bind, emit. simpl.
  by rewrite Hfile, Hdec.
Qed.

Lemma read_file_missing codec disk op handler path t :
  disk !! (location handler, path) = None →
  read_file codec disk op handler path t
  = (Raise (MissingFile (location handler) path),
     t ++ [FileRead op (location handler) path]).
Proof.
  intros Hfile. unfold read_file, mbind, M_bind, bind, emit. simpl.
  by rewrite Hfile.
Qed.

Lemma sessions_held_app t1 t2 :
  sessions_held (t1 ++ t2) = sessions_held t1 + sessions_held t2.
Proof.
  induction t1 as [|[| |op l p] t1 IH]; simpl; lia.
Qed.

Lemma sessions_held_reads d : Forall is_read d → sessions_held d = 0.
Proof.
  induction 1 as [|[| |op l p] d Hev _ IH]; simpl; try done.
Qed.

(** The scope brackets whatever its body adds to the trace. *)
Lemma with_Session_scoped {A} engine (body : Session → M A) :
  reads_only (body (SessionOn engine)) →
  ∃ d, trace_of (with_Session engine body) = SessionEnter :: d ++ [SessionExit]
       ∧ Forall is_read d.
Proof.
  intros Hbody. unfold trace_of, run, with_Session.
  destruct (Hbody ([] ++ [SessionEnter])) as (d & Hd & Hread).
  destruct (body _ _) as [r t']. simpl in *. subst t'. by exists d.
Qed.

Lemma with_Session_result {A} engine (body : Session → M A) :
  result_of (with_Session engine body)
  = fst (body (SessionOn engine) [SessionEnter]).
Proof.
  unfold result_of, run, with_Session. simpl. by destruct (body _ _).
Qed.

Lemma with_Session_trace {A} engine (body : Session → M A) :
  trace_of (with_Session engine body)
  = snd (body (SessionOn engine) [SessionEnter]) ++ [SessionExit].
Proof.
  unfold trace_of, run, with_Session. simpl. by destruct (body _ _).
Qed.

(** ** The two lookups *)

Section Lookups.
Context {B : Type}.
Variable engine : Engine.

Lemma storage_lookup dispatch_id o (k : option LatticeData.t → M B) t :
  storage_rows engine dispatch_id = Return o →
  (get_lattices_id_storage_file (LatticesOn (SessionOn engine)) dispatch_id
     ≫= k) t = k o t.
Proof.
  intros Hrow. apply bind_return.
  unfold get_lattices_id_storage_file, lift. simpl. by rewrite Hrow.
Qed.

Lemma summary_lookup dispatch_id o (k : option Row.t → M B) t :
  lattice_rows engine dispatch_id = Return o →
  (get_lattices_id (LatticesOn (SessionOn engine)) dispatch_id ≫= k) t
  = k o t.
Proof.
  intros Hrow. apply bind_return.
  unfold get_lattices_id, lift. simpl. by rewrite Hrow.
Qed.
End Lookups.

(** ** Kinds and the table *)

Lemma table_lookup_recognized name :
  is_Some (table_lookup name) ↔ name ∈ recognized_kinds.
Proof.
  unfold recognized_kinds. rewrite !elem_of_cons, elem_of_nil. split.
  - intros [row Hrow]. unfold table_lookup, dispatch_table in Hrow; cbn [row_of] in Hrow.
    by_kind; tauto.
  - intros Hin. unfold table_lookup.
    repeat (destruct Hin as [->|Hin]; [by eexists|]). done.
Qed.

Lemma table_lookup_unrecognized name :
  name ∉ recognized_kinds → table_lookup name = None.
Proof.
  intros Hout. destruct (table_lookup name) as [row|] eqn:Hrow; [|done].
  destruct Hout. apply table_lookup_recognized. by eexists.
Qed.

(** ** Runs of [get_lattice_files] on a found record *)

Section FoundRecord.
Variable models : Models.
Variable engine : Engine.
Variable codec : Codec.
Variable disk : Disk.
Variable dispatch_id : UUID.
Variable lattice_data : LatticeData.t.
Hypothesis found : storage_rows engine dispatch_id = Return (Some lattice_data).

(** A recognized kind: the scope holds exactly the read of its row. *)
Lemma recognized_kind_trace name row :
  table_lookup name = Some row →
  trace_of (get_lattice_files models engine codec disk dispatch_id name)
  = [ SessionEnter;
      FileRead (reader_of row) (LatticeData.directory lattice_data)
               (filename_field row lattice_data);
      SessionExit ].
Proof.
  intros Hkind.
  unfold get_lattice_files. rewrite with_Session_trace. cbv beta zeta.
  erewrite storage_lookup by exact found.
  unfold table_lookup, dispatch_table in Hkind; cbn [row_of] in Hkind.
  by_kind.
  all: unfold read_from_pickle, read_from_text.
  all: by rewrite read_then_build_trace.
Qed.

(** Any other name: the scope is empty and the response is null data. *)
Lemma unrecognized_kind_run name :
  name ∉ recognized_kinds →
  run (get_lattice_files models engine codec disk dispatch_id name)
  = (Return (LatticeFileResponse PyNone), [SessionEnter; SessionExit]).
Proof.
  intros Hout. apply table_lookup_unrecognized in Hout.
  unfold get_lattice_files, run, with_Session. cbv beta zeta.
  erewrite storage_lookup by exact found.
  unfold table_lookup, dispatch_table in Hout; cbn [row_of] in Hout.
  by by_kind.
Qed.

(** The file of a row is on disk and decodes: what the read binds. *)
Lemma pickle_read_then_build {R} path bytes v (build : pyval → outcome R) :
  disk !! (LatticeData.directory lattice_data, path) = Some bytes →
  pickle_load codec bytes = Some v →
  fst ((read_from_pickle codec disk
          (FileHandlerAt (LatticeData.directory lattice_data)) path
        ≫= λ response, lift (build response)) [SessionEnter])
  = build v.
Proof.
  intros Hfile Hdec. erewrite bind_return; [done|].
  by eapply read_from_pickle_ok.
Qed.
End FoundRecord.

(** The body of either route adds nothing but file reads. *)
Lemma get_lattice_files_scoped models engine codec disk dispatch_id name :
  ∃ d, trace_of (get_lattice_files models engine codec disk dispatch_id name)
       = SessionEnter :: d ++ [SessionExit]
       ∧ Forall is_read d.
Proof.
  unfold get_lattice_files. apply with_Session_scoped.
  apply reads_only_bind; [apply reads_only_lift|].
  intros [lattice_data|]; [|apply reads_only_raise].
  repeat case_match; try apply reads_only_lift.
  all: apply reads_only_bind;
    [apply reads_only_read_file | intros; apply reads_only_lift].
Qed.

Lemma get_lattice_details_scoped engine dispatch_id :
  ∃ d, trace_of (get_lattice_details engine dispatch_id)
       = SessionEnter :: d ++ [SessionExit]
       ∧ Forall is_read d.
Proof.
  unfold get_lattice_details. apply with_Session_scoped.
  apply reads_only_bind; [apply reads_only_lift|].
  intros [data|]; [apply reads_only_ret|apply reads_only_raise].
Qed.

Lemma scoped_trace_balanced t d :
  t = SessionEnter :: d ++ [SessionExit] → Forall is_read d →
  sessions_held t = 0.
Proof.
  intros -> Hread. simpl. rewrite sessions_held_app, sessions_held_reads by done.
  simpl. lia.
Qed.

(** * The claims *)

(** C1. For each of the eight recognized kinds, [get_lattice_files] on a
    found storage record reads the file named by the kind's row of the
    dispatch table, in the record's directory, and no other file; the
    read is a text read for function_string and error and an object
    read for the other six. *)
Theorem get_lattice_files_reads_table_row models
    engine codec disk dispatch_id name lattice_data :
  storage_rows engine dispatch_id = Return (Some lattice_data) →
  name ∈ recognized_kinds →
  ∃ row,
    table_lookup name = Some row
    ∧ file_reads (trace_of (get_lattice_files models engine codec disk dispatch_id name))
      = [ (reader_of row, LatticeData.directory lattice_data,
           filename_field row lattice_data) ]
    ∧ (reader_of row = read_text_op ↔ name = "function_string" ∨ name = "error")
    ∧ (reader_of row = read_pickle_op
       ↔ name ≠ "function_string" ∧ name ≠ "error").
Proof.
  intros Hfound Hin.
  destruct (proj2 (table_lookup_recognized name) Hin) as [row Hrow].
  exists row. split; [done|]. split.
  - by rewrite (recognized_kind_trace models _ codec disk _ _ Hfound _ _ Hrow).
  - unfold table_lookup, dispatch_table in Hrow; cbn [row_of] in Hrow.
    by_kind; simpl; split; split; try done; intros; try discriminate.
    all: by intuition discriminate.
Qed.

Lemma get_lattice_files_reads_table_row_witness :
  ∃ row,
    table_lookup "error" = Some row
    ∧ file_reads (trace_of (get_lattice_files Fixture.models Fixture.engine Fixture.codec
                              Fixture.disk Fixture.D1 "error"))
      = [ (reader_of row, LatticeData.directory Fixture.storage,
           filename_field row Fixture.storage) ]
    ∧ (reader_of row = read_text_op
       ↔ "error" = "function_string" ∨ "error" = "error")
    ∧ (reader_of row = read_pickle_op
       ↔ "error" ≠ "function_string" ∧ "error" ≠ "error").
Proof.
  apply (get_lattice_files_reads_table_row
           Fixture.models Fixture.engine Fixture.codec Fixture.disk Fixture.D1 "error"
           Fixture.storage).
  - vm_compute. reflexivity.
  - apply (bool_decide_unpack _). vm_compute. exact I.
Defined.

(** C2. For every kind outside the dispatch table, [get_lattice_files]
    on a found storage record returns the response with null data; it
    raises nothing. *)
Theorem get_lattice_files_unrecognized_kind models
    engine codec disk dispatch_id name lattice_data :
  storage_rows engine dispatch_id = Return (Some lattice_data) →
  name ∉ recognized_kinds →
  result_of (get_lattice_files models engine codec disk dispatch_id name)
  = Return (LatticeFileResponse PyNone).
Proof.
  intros Hfound Hout. unfold result_of.
  by erewrite unrecognized_kind_run by eassumption.
Qed.

Lemma get_lattice_files_unrecognized_kind_witness :
  result_of (get_lattice_files Fixture.models Fixture.engine Fixture.codec
               Fixture.disk
               Fixture.D1 "bogus")
  = Return (LatticeFileResponse PyNone).
Proof.
  apply (get_lattice_files_unrecognized_kind
           Fixture.models Fixture.engine Fixture.codec Fixture.disk Fixture.D1 "bogus"
           Fixture.storage).
  - vm_compute. reflexivity.
  - apply (bool_decide_unpack _). vm_compute. exact I.
Defined.

(** C3. For a dispatch id that neither table of the store knows, both
    routes raise the HTTP error whose detail has location
    ["path"; "dispatch_id"], the message "Dispatch ID <id> does not exist"
    with the requested id, and no type, under a client-error status. *)
Theorem unknown_dispatch_id_rejected models engine codec disk dispatch_id name :
  lattice_rows engine dispatch_id = Return None →
  storage_rows engine dispatch_id = Return None →
  ∃ status_code,
    client_error status_code = true
    ∧ result_of (get_lattice_details engine dispatch_id)
      = Raise (HTTPException status_code
                 [ ErrorDetail ["path"; "dispatch_id"]
                     ("Dispatch ID " +:+ dispatch_id +:+ " does not exist")
                     None ])
    ∧ result_of (get_lattice_files models engine codec disk dispatch_id name)
      = Raise (HTTPException status_code
                 [ ErrorDetail ["path"; "dispatch_id"]
                     ("Dispatch ID " +:+ dispatch_id +:+ " does not exist")
                     None ]).
Proof.
  intros Hsummary Hstorage. exists 400. split; [done|]. split.
  - unfold get_lattice_details. rewrite with_Session_result. cbv beta zeta.
    by erewrite summary_lookup by eassumption.
  - unfold get_lattice_files. rewrite with_Session_result. cbv beta zeta.
    by erewrite storage_lookup by eassumption.
Qed.

Lemma unknown_dispatch_id_rejected_witness :
  ∃ status_code,
    client_error status_code = true
    ∧ result_of (get_lattice_details Fixture.engine Fixture.D2)
      = Raise (HTTPException status_code
                 [ ErrorDetail ["path"; "dispatch_id"]
                     ("Dispatch ID " +:+ Fixture.D2 +:+ " does not exist")
                     None ])
    ∧ result_of (get_lattice_files Fixture.models Fixture.engine Fixture.codec
               Fixture.disk
                   Fixture.D2 "inputs")
      = Raise (HTTPException status_code
                 [ ErrorDetail ["path"; "dispatch_id"]
                     ("Dispatch ID " +:+ Fixture.D2 +:+ " does not exist")
                     None ]).
Proof.
  apply (unknown_dispatch_id_rejected
           Fixture.models Fixture.engine Fixture.codec Fixture.disk Fixture.D2 "inputs").
  - vm_compute. reflexivity.
  - vm_compute. reflexivity.
Defined.

(** C4. For a dispatch id the summary table knows, [get_lattice_details]
    returns a payload whose eight fields are those of the stored row:
    dispatch_id, status, total_electrons, total_electrons_completed,
    started_at (the row's start_time), ended_at (its end_time),
    directory and runtime. *)
Theorem get_lattice_details_copies_row engine dispatch_id data :
  lattice_rows engine dispatch_id = Return (Some data) →
  ∃ payload,
    result_of (get_lattice_details engine dispatch_id) = Return payload
    ∧ LatticeDetailResponse.dispatch_id payload = Row.dispatch_id data
    ∧ LatticeDetailResponse.status payload = Row.status data
    ∧ LatticeDetailResponse.total_electrons payload = Row.total_electrons data
    ∧ LatticeDetailResponse.total_electrons_completed payload
      = Row.total_electrons_completed data
    ∧ LatticeDetailResponse.started_at payload = Row.start_time data
    ∧ LatticeDetailResponse.ended_at payload = Row.end_time data
    ∧ LatticeDetailResponse.directory payload = Row.directory data
    ∧ LatticeDetailResponse.runtime payload = Row.runtime data.
Proof.
  intros Hsummary. eexists. split.
  - unfold get_lattice_details. rewrite with_Session_result. cbv beta zeta.
    by erewrite summary_lookup by eassumption.
  - by repeat split.
Qed.

Lemma get_lattice_details_copies_row_witness :
  ∃ payload,
    result_of (get_lattice_details Fixture.engine Fixture.D1) = Return payload
    ∧ LatticeDetailResponse.dispatch_id payload = Fixture.D1
    ∧ LatticeDetailResponse.status payload = "COMPLETED"
    ∧ LatticeDetailResponse.total_electrons payload = 5
    ∧ LatticeDetailResponse.total_electrons_completed payload = 5
    ∧ LatticeDetailResponse.started_at payload = 1660000000
    ∧ LatticeDetailResponse.ended_at payload = Some 1660000042
    ∧ LatticeDetailResponse.directory payload = "/results/D1"
    ∧ LatticeDetailResponse.runtime payload = 42.
Proof.
  apply (get_lattice_details_copies_row
           Fixture.engine Fixture.D1 Fixture.summary).
  vm_compute. reflexivity.
Defined.

(** C5, as the route computes it. For a found storage record and the
    kind "result", [get_lattice_files] returns the data field holding
    [str(v)], the text of the value [v] decoded from the file named by
    results_filename, not [v] itself. *)
Theorem get_lattice_files_result_is_rendered models
    engine codec disk dispatch_id lattice_data bytes v :
  storage_rows engine dispatch_id = Return (Some lattice_data) →
  disk !! (LatticeData.directory lattice_data,
           LatticeData.results_filename lattice_data) = Some bytes →
  pickle_load codec bytes = Some v →
  result_of (get_lattice_files models engine codec disk dispatch_id "result")
  = Return (LatticeFileResponse (PyStr (py_str v))).
Proof.
  intros Hfound Hfile Hdec.
  unfold get_lattice_files. rewrite with_Session_result. cbv beta zeta.
  erewrite storage_lookup by eassumption. simpl.
  by erewrite (pickle_read_then_build codec disk lattice_data
                 _ bytes v
                 (λ r, LatticeFileResponse_init models (PyStr (py_str r)))).
Qed.

Lemma get_lattice_files_result_is_rendered_witness :
  result_of (get_lattice_files Fixture.models Fixture.engine Fixture.codec
               Fixture.disk
               Fixture.D1 "result")
  = Return (LatticeFileResponse (PyStr (py_str (PyInt 5)))).
Proof.
  apply (get_lattice_files_result_is_rendered
           Fixture.models Fixture.engine Fixture.codec Fixture.disk Fixture.D1
           Fixture.storage "int:5" (PyInt 5)).
  - vm_compute. reflexivity.
  - vm_compute. reflexivity.
  - vm_compute. reflexivity.
Defined.

(** C5, as stated, fails: on the fixture the results file decodes to the
    integer 5 and the response carries the string "5". *)
Lemma get_lattice_files_result_not_decoded_value :
  ¬ (∀ models engine codec (disk : Disk) dispatch_id lattice_data bytes v,
       storage_rows engine dispatch_id = Return (Some lattice_data) →
       disk !! (LatticeData.directory lattice_data,
                LatticeData.results_filename lattice_data) = Some bytes →
       pickle_load codec bytes = Some v →
       result_of (get_lattice_files models engine codec disk dispatch_id "result")
       = Return (LatticeFileResponse v)).
Proof.
  intros Hclaim.
  specialize (Hclaim Fixture.models Fixture.engine Fixture.codec Fixture.disk
                Fixture.D1 Fixture.storage "int:5" (PyInt 5)).
  assert (result_of (get_lattice_files Fixture.models Fixture.engine Fixture.codec
                       Fixture.disk Fixture.D1 "result")
          = Return (LatticeFileResponse (PyStr "5"))) as Hrun
    by (vm_compute; reflexivity).
  rewrite Hrun in Hclaim.
  assert (Return (LatticeFileResponse (PyStr "5"))
          = Return (LatticeFileResponse (PyInt 5))) as Heq.
  { apply Hclaim; vm_compute; reflexivity. }
  discriminate Heq.
Qed.




(** C7. When the storage record is found and the file of the requested
    recognized kind is not on disk, [get_lattice_files] raises the
    reader's MissingFile for that file; this is another exception, of
    another kind, than the one raised for an unknown dispatch id. *)
Theorem get_lattice_files_missing_file models
    engine codec disk dispatch_id name lattice_data row :
  storage_rows engine dispatch_id = Return (Some lattice_data) →
  table_lookup name = Some row →
  disk !! (LatticeData.directory lattice_data,
           filename_field row lattice_data) = None →
  ∃ e,
    result_of (get_lattice_files models engine codec disk dispatch_id name) = Raise e
    ∧ e = MissingFile (LatticeData.directory lattice_data)
                      (filename_field row lattice_data)
    ∧ kind_of e = MissingFileKind
    ∧ ∀ unknown_id,
        e ≠ dispatch_id_does_not_exist unknown_id
        ∧ kind_of e ≠ kind_of (dispatch_id_does_not_exist unknown_id).
Proof.
  intros Hfound Hkind Hfile. eexists. split; [|by repeat split].
  unfold get_lattice_files. rewrite with_Session_result. cbv beta zeta.
  erewrite storage_lookup by eassumption.
  unfold table_lookup, dispatch_table in Hkind; cbn [row_of] in Hkind.
  by_kind.
  all: unfold read_from_pickle, read_from_text.
  all: by erewrite bind_raise by (by apply read_file_missing).
Qed.

Lemma get_lattice_files_missing_file_witness :
  ∃ e,
    result_of (get_lattice_files Fixture.models Fixture.engine Fixture.codec ∅
                 Fixture.D1 "transport_graph") = Raise e
    ∧ e = MissingFile "/results/D1" "transport_graph.pkl"
    ∧ kind_of e = MissingFileKind
    ∧ ∀ unknown_id,
        e ≠ dispatch_id_does_not_exist unknown_id
        ∧ kind_of e ≠ kind_of (dispatch_id_does_not_exist unknown_id).
Proof.
  apply (get_lattice_files_missing_file
           Fixture.models Fixture.engine Fixture.codec ∅ Fixture.D1 "transport_graph"
           Fixture.storage
           (TableRow LatticeData.transport_graph_filename read_pickle_op
                     shape_data)).
  - vm_compute. reflexivity.
  - vm_compute. reflexivity.
  - vm_compute. reflexivity.
Defined.

(** C8. Whatever the store, the codec and the disk do, and however the
    request ends, the trace of either route begins with the session
    being entered and ends with it being exited, with nothing but file
    reads between; no session is held when the request is over. *)
Theorem session_released_on_every_exit models engine codec disk dispatch_id name :
  (∃ d, trace_of (get_lattice_details engine dispatch_id)
        = SessionEnter :: d ++ [SessionExit]
        ∧ Forall is_read d)
  ∧ (∃ d, trace_of (get_lattice_files models engine codec disk dispatch_id name)
          = SessionEnter :: d ++ [SessionExit]
          ∧ Forall is_read d)
  ∧ sessions_held (trace_of (get_lattice_details engine dispatch_id)) = 0
  ∧ sessions_held
      (trace_of (get_lattice_files models engine codec disk dispatch_id name)) = 0.
Proof.
  pose proof (get_lattice_details_scoped engine dispatch_id) as Hdetails.
  pose proof (get_lattice_files_scoped models engine codec disk dispatch_id name)
    as Hfiles.
  repeat split; [done|done| |].
  - destruct Hdetails as (d & Htrace & Hread).
    by eapply scoped_trace_balanced.
  - destruct Hfiles as (d & Htrace & Hread).
    by eapply scoped_trace_balanced.
Qed.

(** C9. For a found storage record and a kind outside the dispatch
    table, [get_lattice_files] reads no file, by either reader, before
    it returns the null data; it returns the same on a disk that holds
    no file at all. *)
Theorem get_lattice_files_unrecognized_reads_nothing models
    engine codec disk dispatch_id name lattice_data :
  storage_rows engine dispatch_id = Return (Some lattice_data) →
  name ∉ recognized_kinds →
  file_reads (trace_of (get_lattice_files models engine codec disk dispatch_id name))
  = []
  ∧ trace_of (get_lattice_files models engine codec disk dispatch_id name)
    = [SessionEnter; SessionExit]
  ∧ run (get_lattice_files models engine codec ∅ dispatch_id name)
    = (Return (LatticeFileResponse PyNone), [SessionEnter; SessionExit]).
Proof.
  intros Hfound Hout. unfold trace_of.
  rewrite (unrecognized_kind_run models _ codec disk _ _ Hfound _ Hout).
  by rewrite (unrecognized_kind_run models _ codec ∅ _ _ Hfound _ Hout).
Qed.

Lemma get_lattice_files_unrecognized_reads_nothing_witness :
  file_reads (trace_of (get_lattice_files Fixture.models Fixture.engine Fixture.codec
                          Fixture.disk Fixture.D1 "bogus"))
  = []
  ∧ trace_of (get_lattice_files Fixture.models Fixture.engine Fixture.codec
               Fixture.disk
                Fixture.D1 "bogus")
    = [SessionEnter; SessionExit]
  ∧ run (get_lattice_files Fixture.models Fixture.engine Fixture.codec ∅ Fixture.D1 "bogus")
    = (Return (LatticeFileResponse PyNone), [SessionEnter; SessionExit]).
Proof.
  apply (get_lattice_files_unrecognized_reads_nothing
           Fixture.models Fixture.engine Fixture.codec Fixture.disk Fixture.D1 "bogus"
           Fixture.storage).
  - vm_compute. reflexivity.
  - apply (bool_decide_unpack _). vm_compute. exact I.
Defined.

(** * Further properties of the routes *)

(** ** Lookups that raise, and single reads *)

Lemma storage_lookup_raise {B} engine dispatch_id e
    (k : option LatticeData.t → M B) t :
  storage_rows engine dispatch_id = Raise e →
  (get_lattices_id_storage_file (LatticesOn (SessionOn engine)) dispatch_id
     ≫= k) t = (Raise e, t).
Proof.
  intros Hrow. apply bind_raise.
  unfold get_lattices_id_storage_file, lift. simpl. by rewrite Hrow.
Qed.

Lemma summary_lookup_raise {B} engine dispatch_id e
    (k : option Row.t → M B) t :
  lattice_rows engine dispatch_id = Raise e →
  (get_lattices_id (LatticesOn (SessionOn engine)) dispatch_id ≫= k) t
  = (Raise e, t).
Proof.
  intros Hrow. apply bind_raise.
  unfold get_lattices_id, lift. simpl. by rewrite Hrow.
Qed.

(** A read run from any trace: its outcome is the one it has alone, and
    the trace grows by the read. *)
Lemma read_file_run codec disk op handler path t :
  read_file codec disk op handler path t
  = (result_of (read_file codec disk op handler path),
     t ++ [FileRead op (location handler) path]).
Proof.
  unfold result_of, run, read_file, mbind, M_bind, bind, emit, raise. simpl.
  destruct (disk !! _) as [bytes|]; [|done].
  by destruct op; simpl; [destruct (text_decode _ _)|destruct (pickle_load _ _)].
Qed.

Lemma read_then_build_run {R} codec disk op handler path
    (build : pyval → outcome R) t :
  (read_file codec disk op handler path ≫= λ v, lift (build v)) t
  = (match result_of (read_file codec disk op handler path) with
     | Return v => build v
     | Raise e => Raise e
     end,
     t ++ [FileRead op (location handler) path]).
Proof.
  pose proof (read_file_run codec disk op handler path t) as Hrun.
  destruct (result_of (read_file codec disk op handler path)) as [v|e].
  - by erewrite bind_return by exact Hrun.
  - by erewrite bind_raise by exact Hrun.
Qed.

(** The whole run on a found record and a recognized kind. *)
Lemma found_recognized_run models engine codec disk dispatch_id name lattice_data row :
  storage_rows engine dispatch_id = Return (Some lattice_data) →
  table_lookup name = Some row →
  run (get_lattice_files models engine codec disk dispatch_id name)
  = (match result_of (read_row codec disk row lattice_data) with
     | Return v => build_response models name row lattice_data v
     | Raise e => Raise e
     end,
     [ SessionEnter;
       FileRead (reader_of row) (LatticeData.directory lattice_data)
                (filename_field row lattice_data);
       SessionExit ]).
Proof.
  intros Hfound Hkind.
  unfold get_lattice_files, run, with_Session. cbv beta zeta.
  erewrite storage_lookup by exact Hfound.
  unfold table_lookup, dispatch_table in Hkind; cbn [row_of] in Hkind.
  by_kind.
  all: unfold read_from_pickle, read_from_text, read_row.
  all: by rewrite read_then_build_run.
Qed.

(** The three ways a storage lookup can end, with the run each gives. *)
Lemma get_lattice_files_cases models engine codec disk dispatch_id name :
  (∃ e, storage_rows engine dispatch_id = Raise e
        ∧ run (get_lattice_files models engine codec disk dispatch_id name)
          = (Raise e, [SessionEnter; SessionExit]))
  ∨ (storage_rows engine dispatch_id = Return None
     ∧ run (get_lattice_files models engine codec disk dispatch_id name)
       = (Raise (dispatch_id_does_not_exist dispatch_id),
          [SessionEnter; SessionExit]))
  ∨ (∃ lattice_data,
       storage_rows engine dispatch_id = Return (Some lattice_data)
       ∧ (name ∉ recognized_kinds)
       ∧ run (get_lattice_files models engine codec disk dispatch_id name)
         = (Return (LatticeFileResponse PyNone), [SessionEnter; SessionExit]))
  ∨ (∃ lattice_data row,
       storage_rows engine dispatch_id = Return (Some lattice_data)
       ∧ table_lookup name = Some row
       ∧ run (get_lattice_files models engine codec disk dispatch_id name)
         = (match result_of (read_row codec disk row lattice_data) with
            | Return v => build_response models name row lattice_data v
            | Raise e => Raise e
            end,
            [ SessionEnter;
              FileRead (reader_of row) (LatticeData.directory lattice_data)
                       (filename_field row lattice_data);
              SessionExit ])).
Proof.
  destruct (storage_rows engine dispatch_id) as [[lattice_data|]|e] eqn:Hrow.
  - destruct (table_lookup name) as [row|] eqn:Hkind.
    + do 3 right. exists lattice_data, row. repeat split.
      by apply found_recognized_run.
    + do 2 right. left. exists lattice_data.
      assert (name ∉ recognized_kinds) as Hout.
      { intros Hin. apply table_lookup_recognized in Hin as [row Hsome].
        congruence. }
      repeat split; [done|]. by eapply unrecognized_kind_run.
  - right. left. split; [done|].
    unfold get_lattice_files, run, with_Session. cbv beta zeta.
    by erewrite storage_lookup by exact Hrow.
  - left. exists e. split; [done|].
    unfold get_lattice_files, run, with_Session. cbv beta zeta.
    by erewrite storage_lookup_raise by exact Hrow.
Qed.

Lemma get_lattice_details_cases engine dispatch_id :
  (∃ e, lattice_rows engine dispatch_id = Raise e
        ∧ run (get_lattice_details engine dispatch_id)
          = (Raise e, [SessionEnter; SessionExit]))
  ∨ (lattice_rows engine dispatch_id = Return None
     ∧ run (get_lattice_details engine dispatch_id)
       = (Raise (dispatch_id_does_not_exist dispatch_id),
          [SessionEnter; SessionExit]))
  ∨ (∃ data,
       lattice_rows engine dispatch_id = Return (Some data)
       ∧ run (get_lattice_details engine dispatch_id)
         = (Return (LatticeDetailResponse.Build
                      (Row.dispatch_id data) (Row.status data)
                      (Row.total_electrons data)
                      (Row.total_electrons_completed data)
                      (Row.start_time data) (Row.end_time data)
                      (Row.directory data) (Row.runtime data)),
            [SessionEnter; SessionExit])).
Proof.
  destruct (lattice_rows engine dispatch_id) as [[data|]|e] eqn:Hrow.
  - do 2 right. exists data. split; [done|].
    unfold get_lattice_details, run, with_Session. cbv beta zeta.
    by erewrite summary_lookup by exact Hrow.
  - right. left. split; [done|].
    unfold get_lattice_details, run, with_Session. cbv beta zeta.
    by erewrite summary_lookup by exact Hrow.
  - left. exists e. split; [done|].
    unfold get_lattice_details, run, with_Session. cbv beta zeta.
    by erewrite summary_lookup_raise by exact Hrow.
Qed.

(** Appending a fixed suffix to a string can be undone. *)
Lemma string_app_length (s1 s2 : string) :
  (String.length s1 + String.length s2)%nat = String.length (s1 +:+ s2).
Proof. induction s1 as [|c s1 IH]; simpl; [done|]. by rewrite IH. Qed.

Lemma string_app_inv_tail (s1 s2 suffix : string) :
  s1 +:+ suffix = s2 +:+ suffix → s1 = s2.
Proof.
  revert s2. induction s1 as [|c s1 IH]; intros [|c' s2] Heq.
  - done.
  - apply (f_equal String.length) in Heq.
    rewrite <-!string_app_length in Heq. simpl in Heq. lia.
  - apply (f_equal String.length) in Heq.
    rewrite <-!string_app_length in Heq. simpl in Heq. lia.
  - simpl in Heq. injection Heq as -> Heq. f_equal. by apply IH.
Qed.

(** ** The summary route *)

(** X1. [get_lattice_details] never reads a file: whatever the store
    answers, its trace is the session being entered and exited. *)
Theorem get_lattice_details_reads_no_file engine dispatch_id :
  trace_of (get_lattice_details engine dispatch_id)
  = [SessionEnter; SessionExit].
Proof.
  unfold trace_of.
  destruct (get_lattice_details_cases engine dispatch_id)
    as [(e & _ & Hrun)|[(_ & Hrun)|(data & _ & Hrun)]]; by rewrite Hrun.
Qed.

(** X2. An exception raised by the summary lookup is not caught by
    [get_lattice_details]: the route raises the same exception, after
    the session is exited. *)
Theorem get_lattice_details_store_failure engine dispatch_id e :
  lattice_rows engine dispatch_id = Raise e →
  run (get_lattice_details engine dispatch_id)
  = (Raise e, [SessionEnter; SessionExit]).
Proof.
  intros Hrow.
  destruct (get_lattice_details_cases engine dispatch_id)
    as [(e' & Hrow' & Hrun)|[(Hrow' & _)|(data & Hrow' & _)]]; congruence.
Qed.

Lemma get_lattice_details_store_failure_witness :
  run (get_lattice_details Fixture.broken_engine Fixture.D1)
  = (Raise (DatabaseError "database is locked"), [SessionEnter; SessionExit]).
Proof.
  apply (get_lattice_details_store_failure Fixture.broken_engine Fixture.D1).
  vm_compute. reflexivity.
Defined.

(** X3. A payload returned by [get_lattice_details] is never made up:
    the summary lookup found a row, and the payload is that row, field
    by field. *)
Theorem get_lattice_details_payload_sound engine dispatch_id payload :
  result_of (get_lattice_details engine dispatch_id) = Return payload →
  ∃ data,
    lattice_rows engine dispatch_id = Return (Some data)
    ∧ payload = LatticeDetailResponse.Build
                  (Row.dispatch_id data) (Row.status data)
                  (Row.total_electrons data)
                  (Row.total_electrons_completed data)
                  (Row.start_time data) (Row.end_time data)
                  (Row.directory data) (Row.runtime data).
Proof.
  unfold result_of. intros Hret.
  destruct (get_lattice_details_cases engine dispatch_id)
    as [(e & _ & Hrun)|[(_ & Hrun)|(data & Hrow & Hrun)]];
    rewrite Hrun in Hret; simpl in Hret; try discriminate Hret.
  exists data. split; [done|]. congruence.
Qed.

Lemma get_lattice_details_payload_sound_witness :
  ∃ data,
    lattice_rows Fixture.engine Fixture.D1 = Return (Some data)
    ∧ LatticeDetailResponse.Build Fixture.D1 "COMPLETED" 5 5 1660000000
        (Some 1660000042) "/results/D1" 42
      = LatticeDetailResponse.Build
          (Row.dispatch_id data) (Row.status data)
          (Row.total_electrons data)
          (Row.total_electrons_completed data)
          (Row.start_time data) (Row.end_time data)
          (Row.directory data) (Row.runtime data).
Proof.
  apply (get_lattice_details_payload_sound Fixture.engine Fixture.D1).
  vm_compute. reflexivity.
Defined.

(** X4. [get_lattice_details] raises nothing of its own but the
    not-found error: an exception it raises is either that error, the
    lookup having found no row, or the exception the lookup raised. *)
Theorem get_lattice_details_raises_only engine dispatch_id e :
  result_of (get_lattice_details engine dispatch_id) = Raise e →
  (lattice_rows engine dispatch_id = Return None
   ∧ e = dispatch_id_does_not_exist dispatch_id)
  ∨ lattice_rows engine dispatch_id = Raise e.
Proof.
  unfold result_of. intros Hraise.
  destruct (get_lattice_details_cases engine dispatch_id)
    as [(e' & Hrow & Hrun)|[(Hrow & Hrun)|(data & Hrow & Hrun)]];
    rewrite Hrun in Hraise; simpl in Hraise; simplify_eq; auto.
Qed.

Lemma get_lattice_details_raises_only_witness :
  (lattice_rows Fixture.engine Fixture.D2 = Return None
   ∧ dispatch_id_does_not_exist Fixture.D2
     = dispatch_id_does_not_exist Fixture.D2)
  ∨ lattice_rows Fixture.engine Fixture.D2
    = Raise (dispatch_id_does_not_exist Fixture.D2).
Proof.
  apply (get_lattice_details_raises_only Fixture.engine Fixture.D2).
  vm_compute. reflexivity.
Defined.

(** ** The file route: lookups *)

(** X5. An exception raised by the storage lookup is not caught by
    [get_lattice_files]: for every name the route raises the same
    exception, reads no file, and exits the session. *)
Theorem get_lattice_files_store_failure models engine codec disk dispatch_id name e :
  storage_rows engine dispatch_id = Raise e →
  run (get_lattice_files models engine codec disk dispatch_id name)
  = (Raise e, [SessionEnter; SessionExit]).
Proof.
  intros Hrow.
  destruct (get_lattice_files_cases models engine codec disk dispatch_id name)
    as [(e' & Hrow' & Hrun)|[(Hrow' & _)
        |[(ld & Hrow' & _)|(ld & row & Hrow' & _)]]]; congruence.
Qed.

Lemma get_lattice_files_store_failure_witness :
  run (get_lattice_files Fixture.models Fixture.broken_engine Fixture.codec Fixture.disk
         Fixture.D1 "result")
  = (Raise (DatabaseError "database is locked"), [SessionEnter; SessionExit]).
Proof.
  apply (get_lattice_files_store_failure
           Fixture.models Fixture.broken_engine Fixture.codec Fixture.disk Fixture.D1
           "result").
  vm_compute. reflexivity.
Defined.

(** X6. For a dispatch id the storage table does not know,
    [get_lattice_files] reads no file, whatever the name: the not-found
    check comes before any read. *)
Theorem get_lattice_files_unknown_id_reads_nothing models
    engine codec disk dispatch_id name :
  storage_rows engine dispatch_id = Return None →
  trace_of (get_lattice_files models engine codec disk dispatch_id name)
  = [SessionEnter; SessionExit].
Proof.
  intros Hrow. unfold trace_of.
  destruct (get_lattice_files_cases models engine codec disk dispatch_id name)
    as [(e' & Hrow' & _)|[(_ & Hrun)
        |[(ld & Hrow' & _)|(ld & row & Hrow' & _)]]];
    try congruence.
  by rewrite Hrun.
Qed.

Lemma get_lattice_files_unknown_id_reads_nothing_witness :
  trace_of (get_lattice_files Fixture.models Fixture.engine Fixture.codec
               Fixture.disk
              Fixture.D2 "result")
  = [SessionEnter; SessionExit].
Proof.
  apply (get_lattice_files_unknown_id_reads_nothing
           Fixture.models Fixture.engine Fixture.codec Fixture.disk Fixture.D2 "result").
  vm_compute. reflexivity.
Defined.

(** X7. No request makes [get_lattice_files] read more than one file,
    whatever the store, the disk, the id and the name. *)
Theorem get_lattice_files_at_most_one_read models engine codec disk dispatch_id name :
  (length (file_reads
             (trace_of (get_lattice_files models engine codec disk dispatch_id name)))
   ≤ 1)%nat.
Proof.
  unfold trace_of.
  destruct (get_lattice_files_cases models engine codec disk dispatch_id name)
    as [(e & _ & Hrun)|[(_ & Hrun)
        |[(ld & _ & _ & Hrun)|(ld & row & _ & _ & Hrun)]]];
    rewrite Hrun; simpl; lia.
Qed.

(** ** The file route: outcomes *)

(** X8. A response returned by [get_lattice_files] always rests on a
    found storage record: it is the null data for a name outside the
    eight kinds, and otherwise what the response model of the kind's
    row made of the value its one read returned. *)
Theorem get_lattice_files_response_sound models
    engine codec disk dispatch_id name response :
  result_of (get_lattice_files models engine codec disk dispatch_id name)
  = Return response →
  ∃ lattice_data,
    storage_rows engine dispatch_id = Return (Some lattice_data)
    ∧ (((name ∉ recognized_kinds) ∧ response = LatticeFileResponse PyNone)
       ∨ ∃ row v,
           table_lookup name = Some row
           ∧ result_of (read_row codec disk row lattice_data) = Return v
           ∧ build_response models name row lattice_data v = Return response).
Proof.
  unfold result_of at 1. intros Hret.
  destruct (get_lattice_files_cases models engine codec disk dispatch_id name)
    as [(e & _ & Hrun)|[(_ & Hrun)
        |[(ld & Hrow & Hout & Hrun)|(ld & row & Hrow & Hkind & Hrun)]]];
    rewrite Hrun in Hret; simpl in Hret; try discriminate Hret.
  - exists ld. split; [done|]. left. split; [done|]. congruence.
  - exists ld. split; [done|]. right.
    destruct (result_of (read_row codec disk row ld)) as [v|e] eqn:Hread;
      [|discriminate Hret].
    by exists row, v.
Qed.

Lemma get_lattice_files_response_sound_witness :
  ∃ lattice_data,
    storage_rows Fixture.engine Fixture.D1 = Return (Some lattice_data)
    ∧ ((("error" ∉ recognized_kinds)
        ∧ LatticeFileResponse (PyStr EmptyString) = LatticeFileResponse PyNone)
       ∨ ∃ row v,
           table_lookup "error" = Some row
           ∧ result_of (read_row Fixture.codec Fixture.disk row lattice_data)
             = Return v
           ∧ build_response Fixture.models "error" row lattice_data v
             = Return (LatticeFileResponse (PyStr EmptyString))).
Proof.
  apply (get_lattice_files_response_sound
           Fixture.models Fixture.engine Fixture.codec Fixture.disk
           Fixture.D1 "error").
  vm_compute. reflexivity.
Defined.

(** X9. [get_lattice_files] raises nothing of its own but the not-found
    error: an exception it raises is that error, the lookup having found
    no record, or the exception the lookup raised, or, on a found record
    and a recognized kind, the exception the one read raised or the one
    with which the response model rejected the value read. *)
Theorem get_lattice_files_raises_only models
    engine codec disk dispatch_id name e :
  result_of (get_lattice_files models engine codec disk dispatch_id name)
  = Raise e →
  (storage_rows engine dispatch_id = Return None
   ∧ e = dispatch_id_does_not_exist dispatch_id)
  ∨ storage_rows engine dispatch_id = Raise e
  ∨ ∃ lattice_data row,
      storage_rows engine dispatch_id = Return (Some lattice_data)
      ∧ table_lookup name = Some row
      ∧ (result_of (read_row codec disk row lattice_data) = Raise e
         ∨ ∃ v,
             result_of (read_row codec disk row lattice_data) = Return v
             ∧ build_response models name row lattice_data v = Raise e).
Proof.
  unfold result_of at 1. intros Hraise.
  destruct (get_lattice_files_cases models engine codec disk dispatch_id name)
    as [(e' & Hrow & Hrun)|[(Hrow & Hrun)
        |[(ld & Hrow & Hout & Hrun)|(ld & row & Hrow & Hkind & Hrun)]]];
    rewrite Hrun in Hraise; simpl in Hraise; simplify_eq; auto.
  do 2 right. exists ld, row. split; [done|]. split; [done|].
  destruct (result_of (read_row codec disk row ld)) as [v|e'] eqn:Hread.
  - right. by exists v.
  - left. congruence.
Qed.

Lemma get_lattice_files_raises_only_witness :
  (storage_rows Fixture.engine Fixture.D1 = Return None
   ∧ ValidationError "LatticeFileResponse" "data"
     = dispatch_id_does_not_exist Fixture.D1)
  ∨ storage_rows Fixture.engine Fixture.D1
    = Raise (ValidationError "LatticeFileResponse" "data")
  ∨ ∃ lattice_data row,
      storage_rows Fixture.engine Fixture.D1 = Return (Some lattice_data)
      ∧ table_lookup "inputs" = Some row
      ∧ (result_of (read_row Fixture.codec Fixture.disk row lattice_data)
         = Raise (ValidationError "LatticeFileResponse" "data")
         ∨ ∃ v,
             result_of (read_row Fixture.codec Fixture.disk row lattice_data)
             = Return v
             ∧ build_response Fixture.models "inputs" row lattice_data v
               = Raise (ValidationError "LatticeFileResponse" "data")).
Proof.
  apply (get_lattice_files_raises_only
           Fixture.models Fixture.engine Fixture.codec Fixture.disk
           Fixture.D1 "inputs").
  vm_compute. reflexivity.
Defined.

(** X10. For the kinds inputs, function_string, error, function and
    transport_graph, a string or a None that the reader returned is
    handed on unchanged in the data field. *)
Theorem get_lattice_files_passes_value_through models
    engine codec disk dispatch_id name lattice_data row v :
  storage_rows engine dispatch_id = Return (Some lattice_data) →
  table_lookup name = Some row →
  shape_of row = shape_data →
  name ≠ "result" →
  result_of (read_row codec disk row lattice_data) = Return v →
  v = PyNone ∨ (∃ s, v = PyStr s) →
  result_of (get_lattice_files models engine codec disk dispatch_id name)
  = Return (LatticeFileResponse v).
Proof.
  intros Hfound Hkind Hshape Hname Hread Htext. unfold result_of at 1.
  rewrite (found_recognized_run models _ codec disk _ _ _ _ Hfound Hkind), Hread.
  simpl. unfold build_response. rewrite Hshape.
  apply String.eqb_neq in Hname as ->.
  by destruct Htext as [->|[s ->]].
Qed.

Lemma get_lattice_files_passes_value_through_witness :
  result_of (get_lattice_files Fixture.models Fixture.engine Fixture.codec
               Fixture.disk Fixture.D1 "function_string")
  = Return (LatticeFileResponse (PyStr "def workflow(): pass")).
Proof.
  apply (get_lattice_files_passes_value_through
           Fixture.models Fixture.engine Fixture.codec Fixture.disk Fixture.D1
           "function_string" Fixture.storage
           (TableRow LatticeData.function_string_filename read_text_op
                     shape_data)).
  - vm_compute. reflexivity.
  - vm_compute. reflexivity.
  - reflexivity.
  - discriminate.
  - vm_compute. reflexivity.
  - right. eexists. reflexivity.
Defined.

(** X11. An exception raised by the read of a recognized kind, a
    missing file or bytes the codec rejects, is not caught: the route
    raises the same exception, after that one read and the exit of the
    session. *)
Theorem get_lattice_files_read_failure models
    engine codec disk dispatch_id name lattice_data row e :
  storage_rows engine dispatch_id = Return (Some lattice_data) →
  table_lookup name = Some row →
  result_of (read_row codec disk row lattice_data) = Raise e →
  run (get_lattice_files models engine codec disk dispatch_id name)
  = (Raise e,
     [ SessionEnter;
       FileRead (reader_of row) (LatticeData.directory lattice_data)
                (filename_field row lattice_data);
       SessionExit ]).
Proof.
  intros Hfound Hkind Hread.
  by rewrite (found_recognized_run models _ codec disk _ _ _ _ Hfound Hkind), Hread.
Qed.

Lemma get_lattice_files_read_failure_witness :
  run (get_lattice_files Fixture.models Fixture.engine Fixture.codec
         (<[("/results/D1", "function.pkl") := "garbage"]> Fixture.disk)
         Fixture.D1 "function")
  = (Raise (DecodeError "/results/D1" "function.pkl"),
     [ SessionEnter;
       FileRead read_pickle_op "/results/D1" "function.pkl";
       SessionExit ]).
Proof.
  apply (get_lattice_files_read_failure
           Fixture.models Fixture.engine Fixture.codec
           (<[("/results/D1", "function.pkl") := "garbage"]> Fixture.disk)
           Fixture.D1 "function" Fixture.storage
           (TableRow LatticeData.function_filename read_pickle_op shape_data)).
  - vm_compute. reflexivity.
  - vm_compute. reflexivity.
  - vm_compute. reflexivity.
Defined.

(** X12. Whatever the results file decodes to, a response to the kind
    result carries a string in its data field. *)
Theorem get_lattice_files_result_is_text models
    engine codec disk dispatch_id response :
  result_of (get_lattice_files models engine codec disk dispatch_id "result")
  = Return response →
  ∃ s, response = LatticeFileResponse (PyStr s).
Proof.
  unfold result_of. intros Hret.
  destruct (get_lattice_files_cases models engine codec disk dispatch_id "result")
    as [(e & _ & Hrun)|[(_ & Hrun)
        |[(ld & _ & Hout & _)|(ld & row & _ & Hkind & Hrun)]]].
  - rewrite Hrun in Hret. discriminate Hret.
  - rewrite Hrun in Hret. discriminate Hret.
  - destruct Hout. apply table_lookup_recognized. by eexists.
  - rewrite Hrun in Hret. simpl in Hret.
    destruct (result_of (read_row codec disk row ld)) as [v|e];
      [|discriminate Hret].
    vm_compute in Hkind. injection Hkind as <-.
    exists (py_str v). injection Hret as <-. reflexivity.
Qed.

Lemma get_lattice_files_result_is_text_witness :
  ∃ s, LatticeFileResponse (PyStr "5") = LatticeFileResponse (PyStr s).
Proof.
  apply (get_lattice_files_result_is_text
           Fixture.models Fixture.engine Fixture.codec Fixture.disk Fixture.D1).
  vm_compute. reflexivity.
Defined.

Lemma LatticeFileResponse_init_returns models data response :
  LatticeFileResponse_init models data = Return response →
  ∃ stored, response = LatticeFileResponse stored.
Proof.
  unfold LatticeFileResponse_init, outcome_map. intros Hinit.
  destruct data; try destruct (data_field _ _); simplify_eq; by eexists.
Qed.

(** X13. The model of a returned response is fixed by the kind alone:
    it has the shape of the kind's row, and an executor response bears
    the executor name of the record, a workflow executor response the
    workflow executor name, whatever the file held. *)
Theorem get_lattice_files_response_shape models
    engine codec disk dispatch_id name lattice_data row response :
  storage_rows engine dispatch_id = Return (Some lattice_data) →
  table_lookup name = Some row →
  result_of (get_lattice_files models engine codec disk dispatch_id name)
  = Return response →
  response_shape response = shape_of row
  ∧ match response with
    | LatticeFileResponse _ => True
    | LatticeExecutorResponse executor_name _ =>
        executor_name = LatticeData.executor lattice_data
    | LatticeWorkflowExecutorResponse workflow_executor_name _ =>
        workflow_executor_name = LatticeData.workflow_executor lattice_data
    end.
Proof.
  intros Hfound Hkind. unfold result_of.
  rewrite (found_recognized_run models _ codec disk _ _ _ _ Hfound Hkind). simpl.
  destruct (result_of (read_row codec disk row lattice_data)) as [v|e];
    [|discriminate].
  unfold build_response. intros Hbuild.
  destruct (shape_of row).
  - by apply LatticeFileResponse_init_returns in Hbuild as [stored ->].
  - unfold LatticeExecutorResponse_init, outcome_map in Hbuild.
    by destruct (executor_details_field _ _); simplify_eq.
  - unfold LatticeWorkflowExecutorResponse_init, outcome_map in Hbuild.
    by destruct (workflow_executor_details_field _ _); simplify_eq.
Qed.

Lemma get_lattice_files_response_shape_witness :
  response_shape
    (LatticeWorkflowExecutorResponse "local"
       (PyObject "dict" "{'log_stdout': 'stdout.log'}"))
  = shape_workflow_executor
  ∧ "local" = LatticeData.workflow_executor Fixture.storage.
Proof.
  apply (get_lattice_files_response_shape
           Fixture.models Fixture.engine Fixture.codec Fixture.disk Fixture.D1
           "workflow_executor" Fixture.storage
           (TableRow LatticeData.workflow_executor_data_filename
                     read_pickle_op shape_workflow_executor)
           (LatticeWorkflowExecutorResponse "local"
              (PyObject "dict" "{'log_stdout': 'stdout.log'}"))).
  - vm_compute. reflexivity.
  - vm_compute. reflexivity.
  - vm_compute. reflexivity.
Defined.

(** ** Sessions, messages and the table form *)

(** X14. Every file read of [get_lattice_files] happens while the
    session of the request is held: at any read in the trace, exactly
    one session has been entered and not yet exited. *)
Theorem get_lattice_files_reads_inside_session models
    engine codec disk dispatch_id name before ev after :
  trace_of (get_lattice_files models engine codec disk dispatch_id name)
  = before ++ ev :: after →
  is_read ev →
  sessions_held before = 1.
Proof.
  unfold trace_of. intros Htrace Hread.
  destruct (get_lattice_files_cases models engine codec disk dispatch_id name)
    as [(e & _ & Hrun)|[(_ & Hrun)
        |[(ld & _ & _ & Hrun)|(ld & row & _ & _ & Hrun)]]];
    rewrite Hrun in Htrace; simpl in Htrace.
  1-3: by destruct before as [|? [|? [|? ?]]]; simplify_eq/=.
  by destruct before as [|? [|? [|? [|? ?]]]]; simplify_eq/=.
Qed.

Lemma get_lattice_files_reads_inside_session_witness :
  sessions_held [SessionEnter] = 1.
Proof.
  apply (get_lattice_files_reads_inside_session
           Fixture.models Fixture.engine Fixture.codec Fixture.disk Fixture.D1 "inputs"
           [SessionEnter]
           (FileRead read_pickle_op "/results/D1" "inputs.pkl")
           [SessionExit]).
  - vm_compute. reflexivity.
  - exact I.
Defined.

(** X15. The not-found error names its dispatch id: two ids with the
    same error are the same id. *)
Theorem dispatch_id_does_not_exist_inj id1 id2 :
  dispatch_id_does_not_exist id1 = dispatch_id_does_not_exist id2 →
  id1 = id2.
Proof.
  unfold dispatch_id_does_not_exist. intros Heq.
  injection Heq as Hmsg.
  change (id1 +:+ " does not exist" = id2 +:+ " does not exist") in Hmsg.
  by apply string_app_inv_tail in Hmsg.
Qed.

Lemma dispatch_id_does_not_exist_inj_witness : Fixture.D2 = Fixture.D2.
Proof.
  apply (dispatch_id_does_not_exist_inj Fixture.D2 Fixture.D2).
  reflexivity.
Defined.

(** X16. The chain of comparisons in [get_lattice_files] is a lookup in
    the dispatch table: from every trace, the route runs as the
    dispatcher that finds the row of the name, does the read of the row
    and builds the response of the row, with null data when there is no
    row. *)
Theorem get_lattice_files_is_table_driven models
    engine codec disk dispatch_id name t :
  get_lattice_files models engine codec disk dispatch_id name t
  = dispatch_by_table models engine codec disk dispatch_id name t.
Proof.
  unfold get_lattice_files, dispatch_by_table, with_Session.
  cbv beta zeta.
  destruct (storage_rows engine dispatch_id) as [[lattice_data|]|e] eqn:Hrow.
  - do 2 erewrite storage_lookup by exact Hrow.
    destruct (table_lookup name) as [row|] eqn:Hkind;
      unfold table_lookup, dispatch_table in Hkind; cbn [row_of] in Hkind;
      by_kind; reflexivity.
  - by do 2 erewrite storage_lookup by exact Hrow.
  - by do 2 erewrite storage_lookup_raise by exact Hrow.
Qed.

(** X17. For the kinds inputs, function_string, error, function and
    transport_graph the route ends as the building of the file response
    on the value read ends: with the data the model stores, or with the
    exception by which the model rejects the value, which is not
    caught; either way after the one read and the exit of the
    session. *)
Theorem get_lattice_files_data_validated models
    engine codec disk dispatch_id name lattice_data row v :
  storage_rows engine dispatch_id = Return (Some lattice_data) →
  table_lookup name = Some row →
  shape_of row = shape_data →
  name ≠ "result" →
  result_of (read_row codec disk row lattice_data) = Return v →
  run (get_lattice_files models engine codec disk dispatch_id name)
  = (LatticeFileResponse_init models v,
     [ SessionEnter;
       FileRead (reader_of row) (LatticeData.directory lattice_data)
                (filename_field row lattice_data);
       SessionExit ]).
Proof.
  intros Hfound Hkind Hshape Hname Hread.
  rewrite (found_recognized_run models _ codec disk _ _ _ _ Hfound Hkind), Hread.
  unfold build_response. rewrite Hshape.
  by apply String.eqb_neq in Hname as ->.
Qed.

Lemma get_lattice_files_data_validated_witness :
  run (get_lattice_files Fixture.models Fixture.engine Fixture.codec
         Fixture.disk Fixture.D1 "inputs")
  = (Raise (ValidationError "LatticeFileResponse" "data"),
     [ SessionEnter;
       FileRead read_pickle_op "/results/D1" "inputs.pkl";
       SessionExit ]).
Proof.
  apply (get_lattice_files_data_validated
           Fixture.models Fixture.engine Fixture.codec Fixture.disk Fixture.D1
           "inputs" Fixture.storage
           (TableRow LatticeData.inputs_filename read_pickle_op shape_data)
           (PyObject "dict" "{'args': [], 'kwargs': {}}")).
  - vm_compute. reflexivity.
  - vm_compute. reflexivity.
  - reflexivity.
  - discriminate.
  - vm_compute. reflexivity.
Defined.
